(** * Bank accounts: [BasicAccount] and [PremiumAccount] of accounts.py

    A shallow embedding of the two classes and of the operations on them.

    Conventions of the embedding.
    - Money.  The source keeps balances, limits and amounts as Python
      numbers and converts every amount with [float()].  Amounts are modelled
      as exact rationals [Q]: comparisons are the usual order, [+] and [-]
      are exact.  Rounding, infinities and NaN of binary floating point are
      outside the model.  Equality of amounts is [Qeq] ([==]).
    - Printing.  Every [print] appends one [message] to the output of the
      method; the message carries the values the source interpolates (the
      two-decimal rounding of the display is not modelled).
    - Objects.  A method takes the object and returns the updated object.
      The class attribute [BasicAccount.account_num] is passed explicitly.
    - Overriding.  [closeAccount] of the base class calls [self.withdraw],
      which is resolved on the class of the object; the base method is
      therefore written over the methods it calls on [self]. *)

From Stdlib Require Import QArith Lqa Lia List String Ascii Bool Arith
  PeanoNat NArith Sorted Decimal DecimalString.
From Stdlib Require DecimalPos DecimalN.
Import ListNotations.

Local Open Scope Q_scope.

(** ** Numbers *)

(** [x < y] on amounts, as a boolean. *)
Definition Qltb (x y : Q) : bool := negb (Qle_bool y x).

(** [x > y] on amounts, as the source writes it. *)
Definition Qgtb (x y : Q) : bool := Qltb y x.

(** ** Arguments and output *)

(** The argument of [deposit] and [withdraw] as [float()] sees it: either
    [float(amount)] returns a number (the argument is an int, a float or a
    numeric string), or it raises [ValueError] (a string that is not a
    number). *)
Inductive amount : Type :=
| Numeric (x : Q)
| NonNumeric.

(** [float(amount)]; [None] stands for [ValueError]. *)
Definition float (a : amount) : option Q :=
  match a with
  | Numeric x => Some x
  | NonNumeric => None
  end.

(** The lines the methods print. *)
Inductive message : Type :=
| NotANumber                                (* 'Not a number. Try again.' *)
| NegativeInput                             (* 'Negative input not allowed.' *)
| NewBalance (b : Q)                        (* 'New balance is: {balance}' *)
| CanNotWithdraw (x : Q)                    (* 'Can not withdraw {flt_amount}' *)
| Withdrawn (who : string) (x b : Q)        (* '{name} has withdrawn {x}. New balance is {b}' *)
| ClosingAccount                            (* 'Closing account.' *)
| CanNotClose (b : Q).                      (* 'Can not close account due to customer being overdrawn by {b}' *)





(** The lines [printBalance] prints. *)
Inductive balance_line : Type :=
| HasBalance (who : string) (b : Q)         (* '{name} has a balance of: {balance}' *)
| OverdraftAvailable (x : Q).               (* 'Overdraft available: {x}' *)

(** ** The clock and the random source *)

(** What [datetime.datetime.now()] returns, as far as the source reads it. *)
Record datetime : Type := mkDatetime { year : N; month : N }.

(** The state of the [random] module: a sequence of raw draws and the
    position of the next one. *)
Record rng : Type := mkRng { raw : nat -> N; pos : nat }.

(** [random.randint(lo, hi)]: an integer of [lo..hi], and the source
    advanced by one draw. *)
Definition randint (lo hi : N) (g : rng) : N * rng :=
  ((lo + raw g (pos g) mod (hi - lo + 1))%N,
   {| raw := raw g; pos := S (pos g) |}).

(** ** Strings of digits *)

(** [str(n)] for a non-negative integer. *)
Definition str (n : N) : string := NilEmpty.string_of_uint (N.to_uint n).

(** [s[n:]]. *)
Fixpoint slice_from (n : nat) (s : string) : string :=
  match n, s with
  | O, _ => s
  | S _, EmptyString => EmptyString
  | S n', String _ s' => slice_from n' s'
  end.

(** [int(s)] on a string of decimal digits; [None] stands for
    [ValueError] (the empty string, or a character that is not a digit). *)
Definition int (s : string) : option N :=
  match s with
  | EmptyString => None
  | _ => option_map N.of_uint (NilEmpty.uint_of_string s)
  end.

Definition is_digit (c : ascii) : bool :=
  let n := nat_of_ascii c in (48 <=? n)%nat && (n <=? 57)%nat.

Fixpoint all_digits (s : string) : bool :=
  match s with
  | EmptyString => true
  | String c s' => is_digit c && all_digits s'
  end.

(** ** class BasicAccount *)

Module BasicAccount.

Record t : Type := mk {
  name : string;
  balance : Q;
  acNum : nat;
  cardNum : option string;          (* absent until a card is issued *)
  cardExp : option (N * N)          (* absent until a card is issued *)
}.

Definition set_balance (self : t) (b : Q) : t :=
  {| name := name self; balance := b; acNum := acNum self;
     cardNum := cardNum self; cardExp := cardExp self |}.

Definition set_card (self : t) (num : string) (exp : N * N) : t :=
  {| name := name self; balance := balance self; acNum := acNum self;
     cardNum := Some num; cardExp := Some exp |}.

(** The initial value of the class attribute [account_num]. *)
Definition account_num0 : nat := 0%nat.

(** [openAccount]: [BasicAccount.account_num += 1]. *)
Definition openAccount (account_num : nat) : nat := S account_num.

(** [__init__]: returns the new value of the counter and the object. *)
Definition init (account_num : nat) (theAcName : string)
    (theOpeningBalance : Q) : nat * t :=
  let account_num' := openAccount account_num in
  (account_num',
   {| name := theAcName; balance := theOpeningBalance;
      acNum := account_num'; cardNum := None; cardExp := None |}).

Definition deposit (self : t) (a : amount) : t * list message :=
  match float a with
  | None => (self, [NotANumber])
  | Some flt_amount =>
      if Qltb flt_amount 0 then (self, [NegativeInput])
      else
        let self' := set_balance self (balance self + flt_amount) in
        (self', [NewBalance (balance self')])
  end.

Definition withdraw (self : t) (a : amount) : t * list message :=
  match float a with
  | None => (self, [NotANumber])
  | Some flt_amount =>
      if Qltb flt_amount 0 then (self, [NegativeInput])
      else if Qgtb flt_amount (balance self) then
        (self, [CanNotWithdraw flt_amount])
      else
        let self' := set_balance self (balance self - flt_amount) in
        (self', [Withdrawn (name self') flt_amount (balance self')])
  end.

Definition getAvailableBalance (self : t) : Q := balance self.

Definition getBalance (self : t) : Q := balance self.

(** The sixteen draws of the loop [for i in range(0, 16)], appended to
    [card_num] from left to right. *)
Fixpoint card_digits (n : nat) (card_num : string) (g : rng)
    : string * rng :=
  match n with
  | O => (card_num, g)
  | S n' =>
      let (x, g') := randint 0 9 g in
      card_digits n' (card_num ++ str x)%string g'
  end.

(** [issueNewCard].  [now_y] and [now_m] are the two readings of the
    clock, in the order the source takes them.  [None] stands for the
    [ValueError] of [int()], raised before anything is assigned. *)
Definition issueNewCard (now_y now_m : datetime) (g : rng) (self : t)
    : option (t * rng) :=
  let exp_year := (year now_y + 3)%N in
  let month := month now_m in
  match int (slice_from 2 (str exp_year)) with
  | None => None
  | Some yy =>
      let (card_num, g') := card_digits 16 EmptyString g in
      Some (set_card self card_num (month, yy), g')
  end.

(** [closeAccount], over the class of [self]: [self.balance] and
    [self.withdraw] are those of the object the method is called on. *)
Definition closeAccount_on {Self : Type} (self_balance : Self -> Q)
    (self_withdraw : Self -> amount -> Self * list message)
    (self : Self) : Self * list message * bool :=
  let (self', out) := self_withdraw self (Numeric (self_balance self)) in
  (self', out ++ [ClosingAccount], true).

(** [closeAccount] on an object of class [BasicAccount]. *)
Definition closeAccount (self : t) : t * list message * bool :=
  closeAccount_on balance withdraw self.

(** [printBalance]. *)
Definition printBalance (self : t) : list balance_line :=
  [HasBalance (name self) (balance self)].

(** [getName]. *)
Definition getName (self : t) : string := name self.

(** [getAcNum]: the account number, written in decimal. *)
Definition getAcNum (self : t) : string := str (N.of_nat (acNum self)).

(** The calls that can change an object of the class. *)
Inductive call : Type :=
| Deposit (a : amount)
| Withdraw (a : amount)
| IssueNewCard (now_y now_m : datetime) (g : rng)
| CloseAccount.

(** The object after a call (a call that raises leaves it as it was). *)
Definition after (self : t) (c : call) : t :=
  match c with
  | Deposit a => fst (deposit self a)
  | Withdraw a => fst (withdraw self a)
  | IssueNewCard now_y now_m g =>
      match issueNewCard now_y now_m g self with
      | Some (self', _) => self'
      | None => self
      end
  | CloseAccount => fst (fst (closeAccount self))
  end.

(** The object after a sequence of calls, made in order. *)
Definition run (self : t) (cs : list call) : t := fold_left after cs self.

End BasicAccount.

(** ** class PremiumAccount(BasicAccount) *)

Module PremiumAccount.

(** The attributes of the base class, and the two the subclass adds. *)
Record t : Type := mk {
  base : BasicAccount.t;
  overdraftLimit : Q;
  overdraft : bool
}.

Definition balance (self : t) : Q := BasicAccount.balance (base self).
Definition name (self : t) : string := BasicAccount.name (base self).
Definition acNum (self : t) : nat := BasicAccount.acNum (base self).
Definition cardNum (self : t) : option string :=
  BasicAccount.cardNum (base self).
Definition cardExp (self : t) : option (N * N) :=
  BasicAccount.cardExp (base self).

Definition set_base (self : t) (b : BasicAccount.t) : t :=
  {| base := b; overdraftLimit := overdraftLimit self;
     overdraft := overdraft self |}.

Definition set_balance (self : t) (b : Q) : t :=
  set_base self (BasicAccount.set_balance (base self) b).

Definition set_overdraft (self : t) (o : bool) : t :=
  {| base := base self; overdraftLimit := overdraftLimit self;
     overdraft := o |}.

(** [__init__]: the initializer of the base class, then the two new
    attributes. *)
Definition init (account_num : nat) (theAcName : string)
    (theOpeningBalance theInitialOverdraft : Q) : nat * t :=
  let (account_num', b) :=
    BasicAccount.init account_num theAcName theOpeningBalance in
  (account_num',
   {| base := b; overdraftLimit := theInitialOverdraft;
      overdraft := false |}).

Definition setOverdraftLimit (self : t) (newLimit : Q) : t :=
  {| base := base self; overdraftLimit := newLimit;
     overdraft := overdraft self |}.

Definition getAvailableBalance (self : t) : Q :=
  BasicAccount.getAvailableBalance (base self) + overdraftLimit self.

Definition getBalance (self : t) : Q :=
  BasicAccount.getBalance (base self).

(** [deposit]: the deposit of the base class, then the test on the
    flag. *)
Definition deposit (self : t) (a : amount) : t * list message :=
  let (b, out) := BasicAccount.deposit (base self) a in
  let self' := set_base self b in
  if overdraft self' && Qgtb (balance self') 0
  then (set_overdraft self' false, out)
  else (self', out).

Definition withdraw (self : t) (a : amount) : t * list message :=
  match float a with
  | None => (self, [NotANumber])
  | Some flt_amount =>
      if Qltb flt_amount 0 then (self, [NegativeInput])
      else if Qgtb flt_amount (balance self + overdraftLimit self) then
        (self, [CanNotWithdraw flt_amount])
      else
        let self1 := set_balance self (balance self - flt_amount) in
        let self2 :=
          if Qltb (balance self1) 0 then set_overdraft self1 true
          else self1 in
        (self2, [Withdrawn (name self2) flt_amount (balance self2)])
  end.

(** [issueNewCard] is inherited. *)
Definition issueNewCard (now_y now_m : datetime) (g : rng) (self : t)
    : option (t * rng) :=
  match BasicAccount.issueNewCard now_y now_m g (base self) with
  | None => None
  | Some (b, g') => Some (set_base self b, g')
  end.

(** [closeAccount].  The value returned is [Some false] for [False] and
    [None] for Python's [None]: the second branch calls the method of the
    base class and does not return its result. *)
Definition closeAccount (self : t) : t * list message * option bool :=
  if overdraft self then
    (self, [CanNotClose (balance self)], Some false)
  else
    let '(self', out, _) :=
      BasicAccount.closeAccount_on balance withdraw self in
    (self', out, None).

(** The calls a client can make on an object of the class. *)
Inductive call : Type :=
| Deposit (a : amount)
| Withdraw (a : amount)
| SetOverdraftLimit (newLimit : Q)
| IssueNewCard (now_y now_m : datetime) (g : rng)
| CloseAccount.

(** The object after a call (a call that raises leaves it as it was). *)
Definition after (self : t) (c : call) : t :=
  match c with
  | Deposit a => fst (deposit self a)
  | Withdraw a => fst (withdraw self a)
  | SetOverdraftLimit l => setOverdraftLimit self l
  | IssueNewCard now_y now_m g =>
      match issueNewCard now_y now_m g self with
      | Some (self', _) => self'
      | None => self
      end
  | CloseAccount => fst (fst (closeAccount self))
  end.



(** The flag says what the balance says. *)
Definition flag_agrees (self : t) : Prop :=
  overdraft self = Qltb (balance self) 0.

(** The object after a sequence of calls, made in order. *)
Definition run (self : t) (cs : list call) : t := fold_left after cs self.

(** [printBalance]: the line of the base class, then the overdraft that
    is available. *)
Definition printBalance (self : t) : list balance_line :=
  BasicAccount.printBalance (base self)
  ++ (if overdraft self
      then [OverdraftAvailable (balance self + overdraftLimit self)]
      else [OverdraftAvailable (overdraftLimit self)]).

(** [getName] and [getAcNum] are inherited. *)
Definition getName (self : t) : string := BasicAccount.getName (base self).

Definition getAcNum (self : t) : string := BasicAccount.getAcNum (base self).

End PremiumAccount.

(** ** Opening several accounts *)

(** An object of either class. *)
Inductive account : Type :=
| Basic (a : BasicAccount.t)
| Premium (p : PremiumAccount.t).

Definition account_number (a : account) : nat :=
  match a with
  | Basic b => BasicAccount.acNum b
  | Premium p => PremiumAccount.acNum p
  end.

(** A call of one of the two initializers. *)
Inductive opening : Type :=
| OpenBasic (theAcName : string) (theOpeningBalance : Q)
| OpenPremium (theAcName : string) (theOpeningBalance theInitialOverdraft : Q).

Definition open_one (account_num : nat) (o : opening) : nat * account :=
  match o with
  | OpenBasic who b =>
      let (n, a) := BasicAccount.init account_num who b in (n, Basic a)
  | OpenPremium who b l =>
      let (n, p) := PremiumAccount.init account_num who b l in (n, Premium p)
  end.

(** The initializers called one after the other, on the shared counter. *)
Fixpoint open_all (account_num : nat) (os : list opening)
    : nat * list account :=
  match os with
  | [] => (account_num, [])
  | o :: os' =>
      let (n, a) := open_one account_num o in
      let (n', accts) := open_all n os' in
      (n', a :: accts)
  end.

(** ** Notions used in the statements *)

(** A concrete base account and a concrete premium account, for examples:
    [BasicAccount("Ada", 100.0)], then [PremiumAccount("Bob", 50.0, 100.0)]. *)
Definition ada : BasicAccount.t :=
  snd (BasicAccount.init BasicAccount.account_num0 "Ada" 100).

Definition bob : PremiumAccount.t :=
  snd (PremiumAccount.init 1 "Bob" 50 100).



(** [bob] after [withdraw(120)]: balance -70, limit 100, flag set. *)
Definition bob_overdrawn : PremiumAccount.t :=
  fst (PremiumAccount.withdraw bob (Numeric 120)).

(** [PremiumAccount("Cy", 0.0, 100.0)]. *)
Definition cy : PremiumAccount.t := snd (PremiumAccount.init 2 "Cy" 0 100).



(** * Properties *)

(** ** Comparisons *)

Lemma Qltb_lt (x y : Q) : Qltb x y = true <-> x < y.
Proof.
  unfold Qltb. rewrite negb_true_iff.
  destruct (Qle_bool y x) eqn:E.
  - apply Qle_bool_iff in E. split; [discriminate | lra].
  - split; [intros _ | reflexivity].
    destruct (Qlt_le_dec x y) as [H | H]; [exact H |].
    apply Qle_bool_iff in H. congruence.
Qed.

Lemma Qltb_ge (x y : Q) : Qltb x y = false <-> y <= x.
Proof.
  unfold Qltb. rewrite negb_false_iff. apply Qle_bool_iff.
Qed.

Lemma Qgtb_gt (x y : Q) : Qgtb x y = true <-> y < x.
Proof. apply Qltb_lt. Qed.

Lemma Qgtb_le (x y : Q) : Qgtb x y = false <-> x <= y.
Proof. apply Qltb_ge. Qed.

(** Turns the boolean tests of the source into facts of the order. *)
Ltac tests :=
  repeat match goal with
  | H : Qltb _ _ = true |- _ => apply Qltb_lt in H
  | H : Qltb _ _ = false |- _ => apply Qltb_ge in H
  | H : Qgtb _ _ = true |- _ => apply Qgtb_gt in H
  | H : Qgtb _ _ = false |- _ => apply Qgtb_le in H
  end.

(** ** The methods, case by case *)

Section Frame.
Import PremiumAccount.
Local Open Scope Q_scope.



(** [deposit] of the subclass, by cases on the argument. *)
Lemma deposit_cases (self : t) (a : amount) :
  match float a with
  | Some x =>
      if Qltb x 0 then
        fst (deposit self a) =
          (if overdraft self && Qgtb (balance self) 0
           then set_overdraft self false else self)
      else
        fst (deposit self a) =
          (let self' := set_balance self (balance self + x) in
           if overdraft self && Qgtb (balance self + x) 0
           then set_overdraft self' false else self')
  | None =>
      fst (deposit self a) =
        (if overdraft self && Qgtb (balance self) 0
         then set_overdraft self false else self)
  end.
Proof.
  destruct self as [b l o]. unfold deposit, BasicAccount.deposit.
  destruct (float a) as [x |]; cbn.
  - destruct (Qltb x 0); cbn.
    + destruct (o && _); reflexivity.
    + destruct (o && _); reflexivity.
  - destruct (o && _); reflexivity.
Qed.

(** [withdraw] of the subclass, by cases on the argument. *)
Lemma withdraw_cases (self : t) (a : amount) :
  fst (withdraw self a) =
    match float a with
    | Some x =>
        if Qltb x 0 then self
        else if Qgtb x (balance self + overdraftLimit self) then self
        else
          let self' := set_balance self (balance self - x) in
          if Qltb (balance self - x) 0 then set_overdraft self' true
          else self'
    | None => self
    end.
Proof.
  unfold withdraw.
  destruct (float a) as [x |]; [| reflexivity].
  destruct (Qltb x 0); [reflexivity |].
  destruct (Qgtb x _); [reflexivity |].
  cbn. destruct (Qltb _ 0); reflexivity.
Qed.

Lemma deposit_balance (self : t) (a : amount) :
  balance (fst (deposit self a)) =
    match float a with
    | Some x => if Qltb x 0 then balance self else balance self + x
    | None => balance self
    end.
Proof.
  pose proof (deposit_cases self a) as Hd.
  destruct (float a) as [x |]; [destruct (Qltb x 0) |];
    rewrite Hd; destruct (overdraft self && _); reflexivity.
Qed.

Lemma deposit_overdraftLimit (self : t) (a : amount) :
  overdraftLimit (fst (deposit self a)) = overdraftLimit self.
Proof.
  pose proof (deposit_cases self a) as Hd.
  destruct (float a) as [x |]; [destruct (Qltb x 0) |];
    rewrite Hd; destruct (overdraft self && _); reflexivity.
Qed.

Lemma deposit_overdraft (self : t) (a : amount) :
  overdraft (fst (deposit self a)) =
    overdraft self && negb (Qgtb (balance (fst (deposit self a))) 0).
Proof.
  rewrite deposit_balance.
  pose proof (deposit_cases self a) as Hd.
  destruct self as [b l o]. unfold balance in *. cbn in *.
  destruct (float a) as [x |]; [destruct (Qltb x 0) |];
    rewrite Hd; destruct o; cbn [andb];
    try reflexivity; destruct (Qgtb _ 0); reflexivity.
Qed.

Lemma withdraw_balance (self : t) (a : amount) :
  balance (fst (withdraw self a)) =
    match float a with
    | Some x =>
        if Qltb x 0 then balance self
        else if Qgtb x (balance self + overdraftLimit self)
             then balance self
             else balance self - x
    | None => balance self
    end.
Proof.
  rewrite withdraw_cases.
  destruct (float a) as [x |]; [| reflexivity].
  destruct (Qltb x 0); [reflexivity |].
  destruct (Qgtb x _); [reflexivity |].
  cbv zeta. destruct (Qltb (balance self - x) 0); reflexivity.
Qed.

Lemma withdraw_overdraftLimit (self : t) (a : amount) :
  overdraftLimit (fst (withdraw self a)) = overdraftLimit self.
Proof.
  rewrite withdraw_cases.
  destruct (float a) as [x |]; [| reflexivity].
  destruct (Qltb x 0); [reflexivity |].
  destruct (Qgtb x _); [reflexivity |].
  cbv zeta. destruct (Qltb (balance self - x) 0); reflexivity.
Qed.

Lemma withdraw_overdraft (self : t) (a : amount) :
  overdraft (fst (withdraw self a)) =
    match float a with
    | Some x =>
        if Qltb x 0 then overdraft self
        else if Qgtb x (balance self + overdraftLimit self)
             then overdraft self
             else Qltb (balance self - x) 0 || overdraft self
    | None => overdraft self
    end.
Proof.
  rewrite withdraw_cases.
  destruct (float a) as [x |]; [| reflexivity].
  destruct (Qltb x 0); [reflexivity |].
  destruct (Qgtb x _); [reflexivity |].
  cbv zeta. destruct (Qltb (balance self - x) 0); reflexivity.
Qed.

(** [closeAccount] of the subclass, by cases on the flag. *)
Lemma closeAccount_cases (self : t) :
  closeAccount self =
    if overdraft self then (self, [CanNotClose (balance self)], Some false)
    else (fst (withdraw self (Numeric (balance self))),
          snd (withdraw self (Numeric (balance self))) ++ [ClosingAccount],
          None).
Proof.
  unfold closeAccount, BasicAccount.closeAccount_on.
  destruct (overdraft self); [reflexivity |].
  destruct (withdraw self _); reflexivity.
Qed.


End Frame.

(** ** Withdrawals and invalid amounts *)





(** ** Invariants of the balance *)






(** ** The cached flag *)

(** A withdrawal keeps the flag in agreement with the balance. *)
Lemma flag_agrees_withdraw (p : PremiumAccount.t) (a : amount) :
  PremiumAccount.flag_agrees p ->
  PremiumAccount.flag_agrees (fst (PremiumAccount.withdraw p a)).
Proof.
  unfold PremiumAccount.flag_agrees. intros Hp.
  rewrite withdraw_overdraft, withdraw_balance.
  destruct (float a) as [x |]; [| exact Hp].
  destruct (Qltb x 0) eqn:Ex; [exact Hp |].
  destruct (Qgtb x _) eqn:Eg; [exact Hp |].
  rewrite Hp.
  destruct (Qltb (PremiumAccount.balance p - x) 0) eqn:Eb; [reflexivity |].
  cbn [orb]. apply Qltb_ge. tests. lra.
Qed.

(** A deposit keeps the flag in agreement with the balance, unless it
    brings the balance to zero. *)
Lemma flag_agrees_deposit (p : PremiumAccount.t) (a : amount) :
  PremiumAccount.flag_agrees p ->
  ~ PremiumAccount.balance (fst (PremiumAccount.deposit p a)) == 0 ->
  PremiumAccount.flag_agrees (fst (PremiumAccount.deposit p a)).
Proof.
  unfold PremiumAccount.flag_agrees. intros Hp Hz.
  rewrite deposit_overdraft. rewrite deposit_balance in *. rewrite Hp.
  destruct (float a) as [x |].
  - destruct (Qltb x 0) eqn:Ex.
    + destruct (Qltb (PremiumAccount.balance p) 0) eqn:Eb; [| reflexivity].
      cbn [andb]. apply negb_true_iff, Qgtb_le. tests. lra.
    + destruct (Qltb (PremiumAccount.balance p) 0) eqn:Eb; cbn [andb].
      * destruct (Qltb (PremiumAccount.balance p + x) 0) eqn:Es.
        -- apply negb_true_iff, Qgtb_le. tests. lra.
        -- apply negb_false_iff, Qgtb_gt. tests. lra.
      * symmetry. apply Qltb_ge. tests. lra.
  - destruct (Qltb (PremiumAccount.balance p) 0) eqn:Eb; [| reflexivity].
    cbn [andb]. apply negb_true_iff, Qgtb_le. tests. lra.
Qed.

(** C2, at [cy]: after [withdraw(50)] the balance is -50 and the flag is
    set; after [deposit(50)] the balance is 0 and the flag is still set,
    because [deposit] tests [balance > 0.0]. *)
Lemma deposit_to_zero_keeps_flag :
  let p1 := fst (PremiumAccount.withdraw cy (Numeric 50)) in
  let p2 := fst (PremiumAccount.deposit p1 (Numeric 50)) in
  PremiumAccount.flag_agrees cy
  /\ PremiumAccount.flag_agrees p1
  /\ PremiumAccount.balance p2 = 0
  /\ PremiumAccount.overdraft p2 = true
  /\ Qltb (PremiumAccount.balance p2) 0 = false
  /\ ~ PremiumAccount.flag_agrees p2.
Proof.
  cbv zeta. unfold PremiumAccount.flag_agrees.
  repeat split; try reflexivity.
  vm_compute. discriminate.
Qed.

(** ** Deposit, then withdraw *)



(** ** Closing an account *)

(** With the flag set, [closeAccount] prints the refusal, returns [False]
    and leaves the object as it was. *)
Lemma closeAccount_overdrawn (p : PremiumAccount.t) :
  PremiumAccount.overdraft p = true ->
  PremiumAccount.closeAccount p =
    (p, [CanNotClose (PremiumAccount.balance p)], Some false).
Proof.
  intros Ho. rewrite closeAccount_cases, Ho. reflexivity.
Qed.



(** [closeAccount] of the subclass never returns [True]: its second
    branch has no [return]. *)
Lemma premium_closeAccount_not_True (p : PremiumAccount.t) :
  snd (PremiumAccount.closeAccount p) <> Some true.
Proof.
  rewrite closeAccount_cases.
  destruct (PremiumAccount.overdraft p); discriminate.
Qed.

(** C9, at [bob] (balance 50, limit 100, flag clear): [closeAccount]
    withdraws the 50, prints the closing line and returns [None], where the
    method of the base class returns [True] on [ada]. *)
Lemma premium_closeAccount_returns_None :
  PremiumAccount.overdraft bob = false
  /\ PremiumAccount.balance bob = 50
  /\ PremiumAccount.closeAccount bob =
       (PremiumAccount.set_balance bob 0,
        [Withdrawn "Bob" 50 0; ClosingAccount], None)
  /\ BasicAccount.closeAccount ada =
       (BasicAccount.set_balance ada 0,
        [Withdrawn "Ada" 100 0; ClosingAccount], true).
Proof.
  repeat split; reflexivity.
Qed.

(** ** The flag of a new premium account *)

(** C10.  The initializer of the subclass leaves the flag clear whatever
    the name, the opening balance and the limit; the balance is the opening
    balance as given, so with a negative opening balance the flag
    disagrees with the balance. *)
Theorem premium_init_flag_clear
    (n : nat) (who : string) (opening limit : Q) :
  let p := snd (PremiumAccount.init n who opening limit) in
  PremiumAccount.overdraft p = false
  /\ PremiumAccount.balance p = opening
  /\ PremiumAccount.overdraftLimit p = limit
  /\ (opening < 0 -> ~ PremiumAccount.flag_agrees p).
Proof.
  cbv zeta. repeat split.
  intros Hneg. unfold PremiumAccount.flag_agrees. cbn.
  apply Qltb_lt in Hneg. rewrite Hneg. discriminate.
Qed.

(** C10 at the opening balance -5. *)
Lemma premium_init_flag_clear_witness :
  -5 < 0 /\
  ~ PremiumAccount.flag_agrees (snd (PremiumAccount.init 0 "Dee" (-5) 100)).
Proof.
  assert (Hneg : -5 < 0) by reflexivity.
  split; [exact Hneg |].
  exact (proj2 (proj2 (proj2
           (premium_init_flag_clear 0 "Dee" (-5) 100))) Hneg).
Defined.

(** ** Account numbers *)

Lemma open_one_counter (n : nat) (o : opening) :
  fst (open_one n o) = S n /\ account_number (snd (open_one n o)) = S n.
Proof.
  destruct o; split; reflexivity.
Qed.

Lemma open_all_numbers (os : list opening) :
  forall n,
    fst (open_all n os) = (n + List.length os)%nat
    /\ map account_number (snd (open_all n os)) = seq (S n) (List.length os).
Proof.
  induction os as [| o os IH]; intros n.
  - cbn. split; [lia | reflexivity].
  - cbn [open_all].
    pose proof (open_one_counter n o) as [Hc Hn].
    destruct (open_one n o) as [n1 a]. cbn [fst snd] in Hc, Hn. subst n1.
    specialize (IH (S n)) as [IHc IHn].
    destruct (open_all (S n) os) as [n' accts]. cbn [fst snd] in *.
    cbn [List.length map]. split; [lia |]. rewrite Hn, IHn. reflexivity.
Qed.

Lemma seq_increasing (len : nat) :
  forall start, StronglySorted lt (seq start len).
Proof.
  induction len as [| len IH]; intros start; cbn; constructor.
  - apply IH.
  - apply Forall_forall. intros k Hk. apply in_seq in Hk. lia.
Qed.

(** C7.  For any list of calls of the two initializers, in any mix, and
    any value of the shared counter before them: each call adds exactly one
    to the counter, so that the counter has grown by the number of calls;
    the account numbers are the successive values of the counter, hence
    strictly increasing in the order of creation and pairwise distinct. *)
Theorem account_numbers_increasing (n : nat) (os : list opening) :
  (forall k o, fst (open_one k o) = S k)
  /\ fst (open_all n os) = (n + List.length os)%nat
  /\ List.length (snd (open_all n os)) = List.length os
  /\ map account_number (snd (open_all n os)) = seq (S n) (List.length os)
  /\ StronglySorted lt (map account_number (snd (open_all n os)))
  /\ NoDup (map account_number (snd (open_all n os))).
Proof.
  pose proof (open_all_numbers os n) as [Hc Hn].
  split; [intros k o; apply open_one_counter |].
  split; [exact Hc |].
  split; [rewrite <- (length_map account_number), Hn; apply length_seq |].
  split; [exact Hn |].
  rewrite Hn. split; [apply seq_increasing | apply seq_NoDup].
Qed.

(** ** Issuing a card *)










(** ** The scenarios of the specification *)

(** A base account opened with 100: [withdraw(150)] is refused and the
    balance stays 100. *)
Example scenario_insufficient_funds :
  BasicAccount.withdraw ada (Numeric 150) = (ada, [CanNotWithdraw 150])
  /\ BasicAccount.balance ada = 100.
Proof. split; reflexivity. Qed.

(** A premium account opened with 50 and limit 100: [withdraw(120)] gives
    balance -70 with the flag set; [deposit(80)] then gives balance 10
    with the flag clear. *)
Example scenario_overdraft :
  PremiumAccount.balance bob_overdrawn = -70
  /\ PremiumAccount.overdraft bob_overdrawn = true
  /\ PremiumAccount.balance
       (fst (PremiumAccount.deposit bob_overdrawn (Numeric 80))) = 10
  /\ PremiumAccount.overdraft
       (fst (PremiumAccount.deposit bob_overdrawn (Numeric 80))) = false.
Proof. repeat split; reflexivity. Qed.

(** An overdrawn premium account: [closeAccount] is refused and changes
    nothing. *)
Example scenario_close_overdrawn :
  PremiumAccount.closeAccount bob_overdrawn =
    (bob_overdrawn, [CanNotClose (-70)], Some false).
Proof. reflexivity. Qed.

(** A base account with balance 25.5: [closeAccount] brings the balance
    to zero and returns [True]. *)
Example scenario_close_basic :
  let b := snd (BasicAccount.init 3 "Eve" 25.5) in
  BasicAccount.balance (fst (fst (BasicAccount.closeAccount b))) == 0
  /\ snd (BasicAccount.closeAccount b) = true.
Proof. split; reflexivity. Qed.

(** * Further properties of the two classes *)

(** ** The account number as a string *)

Lemma string_of_uint_digits (d : Decimal.uint) :
  all_digits (NilEmpty.string_of_uint d) = true.
Proof.
  induction d; cbn; auto.
Qed.

Lemma to_uint_not_Nil (n : N) : N.to_uint n <> Decimal.Nil.
Proof.
  destruct n as [| p]; [discriminate |].
  apply DecimalPos.Unsigned.to_uint_nonnil.
Qed.

(** [int(str(n))] is [n]. *)
Lemma int_str (n : N) : int (str n) = Some n.
Proof.
  unfold int, str.
  pose proof (to_uint_not_Nil n) as Hn.
  pose proof (NilEmpty.usu (N.to_uint n)) as Hu.
  destruct (N.to_uint n) eqn:E; try congruence;
    cbn [NilEmpty.string_of_uint]; rewrite <- E in *;
    (rewrite E in Hu at 1; cbn [NilEmpty.string_of_uint] in Hu;
     rewrite Hu; cbn [option_map]; now rewrite DecimalN.Unsigned.of_to).
Qed.

(** [getAcNum] returns a non-empty string of digits that reads back, with
    [int], as the account number; two accounts have the same string only
    when they have the same number.  This holds for both classes, which
    share the method. *)
Theorem getAcNum_reads_back
    (a b : BasicAccount.t) (p : PremiumAccount.t) :
  int (BasicAccount.getAcNum a) = Some (N.of_nat (BasicAccount.acNum a))
  /\ all_digits (BasicAccount.getAcNum a) = true
  /\ BasicAccount.getAcNum a <> EmptyString
  /\ (BasicAccount.getAcNum a = BasicAccount.getAcNum b ->
      BasicAccount.acNum a = BasicAccount.acNum b)
  /\ int (PremiumAccount.getAcNum p) = Some (N.of_nat (PremiumAccount.acNum p))
  /\ (PremiumAccount.getAcNum p = BasicAccount.getAcNum a ->
      PremiumAccount.acNum p = BasicAccount.acNum a).
Proof.
  assert (Hinj : forall m n : nat,
             str (N.of_nat m) = str (N.of_nat n) -> m = n).
  { intros m n H. apply Nat2N.inj.
    pose proof (int_str (N.of_nat m)) as Hm. rewrite H, int_str in Hm.
    congruence. }
  unfold PremiumAccount.getAcNum, BasicAccount.getAcNum,
    PremiumAccount.acNum.
  repeat split.
  - apply int_str.
  - apply string_of_uint_digits.
  - intros H. pose proof (int_str (N.of_nat (BasicAccount.acNum a))) as Hi.
    rewrite H in Hi. discriminate Hi.
  - apply Hinj.
  - apply int_str.
  - apply Hinj.
Qed.

(** The hypothesis of the last part holds of two accounts numbered 1. *)
Lemma getAcNum_reads_back_witness :
  BasicAccount.getAcNum ada
  = BasicAccount.getAcNum (snd (BasicAccount.init 0 "Flo" 7))
  /\ BasicAccount.acNum ada
     = BasicAccount.acNum (snd (BasicAccount.init 0 "Flo" 7)).
Proof.
  assert (H : BasicAccount.getAcNum ada
              = BasicAccount.getAcNum (snd (BasicAccount.init 0 "Flo" 7)))
    by reflexivity.
  split; [exact H |].
  exact (proj1 (proj2 (proj2 (proj2
           (getAcNum_reads_back ada (snd (BasicAccount.init 0 "Flo" 7))
              bob)))) H).
Defined.

(** ** What the calls leave alone *)

(** [issueNewCard], by cases on the two-digit year. *)
Lemma basic_issueNewCard_cases
    (now_y now_m : datetime) (g : rng) (b : BasicAccount.t) :
  BasicAccount.issueNewCard now_y now_m g b =
    match int (slice_from 2 (str (year now_y + 3))) with
    | None => None
    | Some yy =>
        Some (BasicAccount.set_card b
                (fst (BasicAccount.card_digits 16 EmptyString g))
                (month now_m, yy),
              snd (BasicAccount.card_digits 16 EmptyString g))
    end.
Proof.
  unfold BasicAccount.issueNewCard.
  destruct (int _); [| reflexivity].
  destruct (BasicAccount.card_digits 16 EmptyString g); reflexivity.
Qed.

(** One call on an object of the base class: name and account number. *)
Lemma basic_after_identity (b : BasicAccount.t) (c : BasicAccount.call) :
  BasicAccount.name (BasicAccount.after b c) = BasicAccount.name b
  /\ BasicAccount.acNum (BasicAccount.after b c) = BasicAccount.acNum b.
Proof.
  destruct c as [a | a | ny nm g |]; cbn [BasicAccount.after].
  - unfold BasicAccount.deposit.
    destruct (float a) as [x |]; [destruct (Qltb x 0) |]; split; reflexivity.
  - unfold BasicAccount.withdraw.
    destruct (float a) as [x |];
      [destruct (Qltb x 0); [| destruct (Qgtb x _)] |]; split; reflexivity.
  - rewrite basic_issueNewCard_cases.
    destruct (int _); split; reflexivity.
  - unfold BasicAccount.closeAccount, BasicAccount.closeAccount_on,
      BasicAccount.withdraw. cbn [float].
    destruct (Qltb _ 0); [| destruct (Qgtb _ _)]; split; reflexivity.
Qed.

(** One call on an object of the subclass: name and account number. *)
Lemma premium_after_identity
    (p : PremiumAccount.t) (c : PremiumAccount.call) :
  PremiumAccount.name (PremiumAccount.after p c) = PremiumAccount.name p
  /\ PremiumAccount.acNum (PremiumAccount.after p c)
     = PremiumAccount.acNum p.
Proof.
  destruct c as [a | a | l | ny nm g |]; cbn [PremiumAccount.after].
  - pose proof (deposit_cases p a) as Hd.
    destruct (float a) as [x |]; [destruct (Qltb x 0) |]; rewrite Hd;
      destruct (PremiumAccount.overdraft p && _); split; reflexivity.
  - rewrite withdraw_cases.
    destruct (float a) as [x |];
      [destruct (Qltb x 0); [| destruct (Qgtb x _)] |];
      try (split; reflexivity).
    cbv zeta. destruct (Qltb _ 0); split; reflexivity.
  - split; reflexivity.
  - unfold PremiumAccount.issueNewCard.
    rewrite basic_issueNewCard_cases.
    destruct (int _); split; reflexivity.
  - rewrite closeAccount_cases.
    destruct (PremiumAccount.overdraft p); [split; reflexivity |].
    cbn [fst]. rewrite withdraw_cases. cbn [float].
    destruct (Qltb _ 0); [| destruct (Qgtb _ _)];
      try (split; reflexivity).
    cbv zeta. destruct (Qltb _ 0); split; reflexivity.
Qed.

Lemma basic_run_identity (cs : list BasicAccount.call) :
  forall b,
    BasicAccount.name (BasicAccount.run b cs) = BasicAccount.name b
    /\ BasicAccount.acNum (BasicAccount.run b cs) = BasicAccount.acNum b.
Proof.
  induction cs as [| c cs IH]; intros b; [split; reflexivity |].
  cbn [BasicAccount.run fold_left].
  destruct (IH (BasicAccount.after b c)) as [H1 H2].
  destruct (basic_after_identity b c) as [H3 H4].
  unfold BasicAccount.run in *. split; congruence.
Qed.

Lemma premium_run_identity (ds : list PremiumAccount.call) :
  forall p,
    PremiumAccount.name (PremiumAccount.run p ds) = PremiumAccount.name p
    /\ PremiumAccount.acNum (PremiumAccount.run p ds)
       = PremiumAccount.acNum p.
Proof.
  induction ds as [| d ds IH]; intros p; [split; reflexivity |].
  cbn [PremiumAccount.run fold_left].
  destruct (IH (PremiumAccount.after p d)) as [H1 H2].
  destruct (premium_after_identity p d) as [H3 H4].
  unfold PremiumAccount.run in *. split; congruence.
Qed.

(** No sequence of calls changes the holder's name or the account number
    of an object, of either class: they are the ones the initializer gave,
    and [getName] and [getAcNum] return the same strings throughout. *)
Theorem calls_keep_name_and_number
    (b : BasicAccount.t) (cs : list BasicAccount.call)
    (p : PremiumAccount.t) (ds : list PremiumAccount.call) :
  BasicAccount.name (BasicAccount.run b cs) = BasicAccount.name b
  /\ BasicAccount.acNum (BasicAccount.run b cs) = BasicAccount.acNum b
  /\ BasicAccount.getName (BasicAccount.run b cs) = BasicAccount.getName b
  /\ BasicAccount.getAcNum (BasicAccount.run b cs) = BasicAccount.getAcNum b
  /\ PremiumAccount.name (PremiumAccount.run p ds) = PremiumAccount.name p
  /\ PremiumAccount.acNum (PremiumAccount.run p ds)
     = PremiumAccount.acNum p
  /\ PremiumAccount.getName (PremiumAccount.run p ds)
     = PremiumAccount.getName p
  /\ PremiumAccount.getAcNum (PremiumAccount.run p ds)
     = PremiumAccount.getAcNum p.
Proof.
  destruct (basic_run_identity cs b) as [H1 H2].
  destruct (premium_run_identity ds p) as [H3 H4].
  unfold PremiumAccount.getName, PremiumAccount.getAcNum,
    BasicAccount.getName, BasicAccount.getAcNum.
  unfold PremiumAccount.name, PremiumAccount.acNum in *.
  rewrite H1, H2, H3, H4. repeat split; reflexivity.
Qed.

(** On an object of the subclass, the overdraft limit changes only by
    [setOverdraftLimit], and the card only by [issueNewCard]: every other
    call leaves them as they were. *)
Theorem limit_and_card_change_only_by_their_method
    (p : PremiumAccount.t) (c : PremiumAccount.call) :
  PremiumAccount.overdraftLimit (PremiumAccount.after p c) =
    match c with
    | PremiumAccount.SetOverdraftLimit l => l
    | _ => PremiumAccount.overdraftLimit p
    end
  /\ match c with
     | PremiumAccount.IssueNewCard _ _ _ => True
     | _ => PremiumAccount.cardNum (PremiumAccount.after p c)
            = PremiumAccount.cardNum p
            /\ PremiumAccount.cardExp (PremiumAccount.after p c)
               = PremiumAccount.cardExp p
     end.
Proof.
  destruct c as [a | a | l | ny nm g |]; cbn [PremiumAccount.after].
  - rewrite deposit_overdraftLimit. split; [reflexivity |].
    pose proof (deposit_cases p a) as Hd.
    destruct (float a) as [x |]; [destruct (Qltb x 0) |]; rewrite Hd;
      destruct (PremiumAccount.overdraft p && _); split; reflexivity.
  - rewrite withdraw_overdraftLimit. split; [reflexivity |].
    rewrite withdraw_cases.
    destruct (float a) as [x |];
      [destruct (Qltb x 0); [| destruct (Qgtb x _)] |];
      try (split; reflexivity).
    cbv zeta. destruct (Qltb _ 0); split; reflexivity.
  - repeat split.
  - split; [| exact I].
    unfold PremiumAccount.issueNewCard.
    rewrite basic_issueNewCard_cases.
    destruct (int _); reflexivity.
  - rewrite closeAccount_cases.
    destruct (PremiumAccount.overdraft p); [repeat split |].
    cbn [fst]. rewrite withdraw_overdraftLimit. split; [reflexivity |].
    rewrite withdraw_cases. cbn [float].
    destruct (Qltb _ 0); [| destruct (Qgtb _ _)];
      try (split; reflexivity).
    cbv zeta. destruct (Qltb _ 0); split; reflexivity.
Qed.

(** ** Invariants along a sequence of calls *)









(** ** What [printBalance] shows *)



(** ** Amounts add up *)



(** ** The way out of the overdrawn state *)



(** ** Closing an account that has nothing to withdraw *)



(** ** Withdraw, then deposit *)



(** ** A card in the early years *)





(** ** A premium account without overdraft *)



(** ** After the account is closed *)


